(** * SyftBox proxy server: the [/proxy-download] relay handler

    A shallow embedding of [proxy-server-sample/proxy_server.py] and the
    properties of its single handler, [proxy_download].

    The handler is effectful Python: it writes to a logger, performs one
    outbound call through [httpx] and maps the outcome, returned or raised,
    to a [Response].  The embedding threads an explicit world (the log and
    the outbound calls made so far) through a small state-and-exception
    monad; the upstream server is an environment mapping an outbound call
    to its outcome.

    The collaborators the handler is written against are modelled at their
    interface: [httpx] (the call, the response object, the exception
    classes), the [Response] object of the web framework (the constructor's
    arguments, with its defaults), and the request model [ProxyRequest]. *)

From Stdlib Require Import ZArith NArith String Ascii List.
From Stdlib.Strings Require Import Byte.
From Stdlib Require Import DecimalString DecimalPos DecimalZ.
From stdpp Require Import gmap list.

Set Warnings "-register-all".

(** ** Python values *)

(** A Python [str] is a sequence of Unicode code points. *)
Abbreviation pystr := (list N).

(** An ASCII literal of the source. *)
Definition lit (s : string) : pystr := List.map N_of_ascii (list_ascii_of_string s).

(** The double-quote character, U+0022. *)
Definition dquote : N := 34%N.

(** A literal in which the apostrophe stands for the double quote, for
    texts that contain double quotes. *)
Definition sq (s : string) : pystr :=
  List.map (fun c => if (c =? 39)%N then dquote else c) (lit s).

(** [str(n)] for an [int], also what an f-string field of an [int] renders. *)
Definition str_int (n : Z) : pystr := lit (NilZero.string_of_int (Z.to_int n)).

(** [sep.join(items)] *)
Fixpoint join (sep : pystr) (items : list pystr) : pystr :=
  match items with
  | [] => []
  | [x] => x
  | x :: rest => x ++ sep ++ join sep rest
  end.

(** [bytes.lower()]: only the ASCII letters change. *)
Definition lower_char (c : N) : N :=
  if ((65 <=? c) && (c <=? 90))%N then (c + 32)%N else c.

Definition lower (s : pystr) : pystr := List.map lower_char s.

(** ** Exceptions *)

(** The classes an outbound call raises derive from [Exception]: the
    hierarchy of [httpx], and any other class ([OSError], [ssl.SSLError],
    [ValueError], ...) under [Other]. *)
Inductive ExcClass : Type :=
  | Exception
  | HTTPError
  | RequestError
  | TransportError
  | TimeoutException
  | ConnectTimeout
  | ReadTimeout
  | WriteTimeout
  | PoolTimeout
  | NetworkError
  | ConnectError
  | ReadError
  | WriteError
  | CloseError
  | ProtocolError
  | LocalProtocolError
  | RemoteProtocolError
  | ProxyError
  | UnsupportedProtocol
  | DecodingError
  | TooManyRedirects
  | HTTPStatusError
  | InvalidURL
  | Other (name : string).

#[global] Instance ExcClass_eq_dec : EqDecision ExcClass.
Proof. solve_decision. Defined.

(** The direct base class; [Exception] is the root of the model. *)
Definition base (c : ExcClass) : option ExcClass :=
  match c with
  | Exception => None
  | HTTPError => Some Exception
  | RequestError => Some HTTPError
  | TransportError => Some RequestError
  | TimeoutException => Some TransportError
  | ConnectTimeout | ReadTimeout | WriteTimeout | PoolTimeout => Some TimeoutException
  | NetworkError => Some TransportError
  | ConnectError | ReadError | WriteError | CloseError => Some NetworkError
  | ProtocolError => Some TransportError
  | LocalProtocolError | RemoteProtocolError => Some ProtocolError
  | ProxyError => Some TransportError
  | UnsupportedProtocol => Some TransportError
  | DecodingError => Some RequestError
  | TooManyRedirects => Some RequestError
  | HTTPStatusError => Some HTTPError
  | InvalidURL => Some Exception
  | Other _ => Some Exception
  end.

(** [issubclass(c, d)], walking at most [depth] steps up the hierarchy. *)
Fixpoint issubclass_upto (depth : nat) (c d : ExcClass) : bool :=
  if decide (c = d) then true
  else match depth with
       | O => false
       | S depth' =>
           match base c with
           | Some b => issubclass_upto depth' b d
           | None => false
           end
       end.

(** No class of the model is more than six steps below [Exception]. *)
Definition issubclass (c d : ExcClass) : bool := issubclass_upto 6 c d.

(** A raised exception: its class and [str(e)]. *)
Record PyExc : Type := mkExc {
  exc_class : ExcClass;
  exc_str : pystr
}.

Definition isinstance (e : PyExc) (c : ExcClass) : bool :=
  issubclass (exc_class e) c.

(** ** The [httpx] client *)

Module httpx.

(** [response.headers]: the header lines in the order received; names
    compare case-insensitively and a name may repeat. *)
Record Headers : Type := mkHeaders {
  raw : list (pystr * pystr)
}.

Definition getitem (h : Headers) (key : pystr) : option pystr :=
  let items :=
    List.map snd
      (List.filter (fun kv => bool_decide (lower (fst kv) = lower key)) (raw h)) in
  match items with
  | [] => None
  | _ => Some (join (lit ", ") items)
  end.

(** [headers.get(key, default)] *)
Definition get (h : Headers) (key default : pystr) : pystr :=
  match getitem h key with
  | Some v => v
  | None => default
  end.

Record Response : Type := mkResponse {
  status_code : Z;
  headers : Headers;
  content : list byte
}.

Inductive Method : Type := GET | HEAD | POST | PUT | PATCH | DELETE | OPTIONS.

(** One outbound call as the client was asked to make it. *)
Record Call : Type := mkCall {
  call_method : Method;
  call_url : pystr;
  call_headers : gmap pystr pystr;
  call_content : option (list byte);
  call_timeout : Z  (* seconds *)
}.

(** What awaiting the call gives: a response, or a raised exception. *)
Inductive Outcome : Type :=
  | Returned (r : Response)
  | Raised (e : PyExc).

End httpx.

(** The upstream side: what each outbound call meets. *)
Definition Upstream : Type := httpx.Call -> httpx.Outcome.

(** ** The framework's [Response] *)

(** [content] is a [str] on the error paths and [bytes] on the success path. *)
Inductive Content : Type :=
  | Str (s : pystr)
  | Bytes (b : list byte).

Record Response : Type := mkResponse {
  content : Content;
  status_code : Z;
  headers : option (gmap pystr pystr);
  media_type : option pystr
}.

(** [Response(content, status_code=200, headers=None, media_type=None)]:
    an argument the call site omits is [None] here and takes its default. *)
Definition Response_init (content : Content) (status_code : option Z)
    (headers : option (gmap pystr pystr)) (media_type : option pystr) : Response :=
  {| content := content;
     status_code := default 200%Z status_code;
     headers := headers;
     media_type := media_type |}.

(** The value of a header the handler set explicitly on the response. *)
Definition response_header (r : Response) (name : pystr) : option pystr :=
  match headers r with
  | Some h => h !! name
  | None => None
  end.

(** ** The request model *)

(** [class ProxyRequest(BaseModel)]: [url: str], [key: Optional[str] = "unknown"]. *)
Record ProxyRequest : Type := mkProxyRequest {
  url : pystr;
  key : option pystr
}.

Definition key_default : option pystr := Some (lit "unknown").

(** How an f-string renders an [Optional[str]]. *)
Definition format_optional (o : option pystr) : pystr :=
  match o with
  | Some s => s
  | None => lit "None"
  end.

(** ** The world and the handler monad *)

Inductive Level : Type := INFO | ERROR.

Record World : Type := mkWorld {
  log : list (Level * pystr);
  calls : list httpx.Call
}.

Inductive Result (A : Type) : Type :=
  | Ok (a : A)
  | Raise (e : PyExc).
Arguments Ok {A} a.
Arguments Raise {A} e.

Definition M (A : Type) : Type := Upstream -> World -> Result A * World.

Definition ret {A} (a : A) : M A := fun _ w => (Ok a, w).

Definition bind {A B} (m : M A) (k : A -> M B) : M B :=
  fun u w =>
    match m u w with
    | (Ok a, w') => k a u w'
    | (Raise e, w') => (Raise e, w')
    end.

Definition raise {A} (e : PyExc) : M A := fun _ w => (Raise e, w).

(** [try: body except ... as e: handler e] *)
Definition try_except {A} (body : M A) (handler : PyExc -> M A) : M A :=
  fun u w =>
    match body u w with
    | (Ok a, w') => (Ok a, w')
    | (Raise e, w') => handler e u w'
    end.

Declare Scope handler_scope.
Delimit Scope handler_scope with handler.
Notation "x <- m ;; k" := (bind m (fun x => k))
  (at level 100, m at next level, right associativity) : handler_scope.
Notation "m ;; k" := (bind m (fun _ => k))
  (at level 100, right associativity) : handler_scope.

Module logger.

Definition emit (lvl : Level) (msg : pystr) : M unit :=
  fun _ w => (Ok tt, {| log := log w ++ [(lvl, msg)]; calls := calls w |}).

(** The root level is [INFO], so both methods emit. *)
Definition info : pystr -> M unit := emit INFO.
Definition error : pystr -> M unit := emit ERROR.

End logger.

(** [async with httpx.AsyncClient(timeout=t) as client:
       response = await client.get(url, headers=h)] *)
Definition AsyncClient_get (timeout : Z) (url : pystr)
    (headers : gmap pystr pystr) : M httpx.Response :=
  fun u w =>
    let c := {| httpx.call_method := httpx.GET;
                httpx.call_url := url;
                httpx.call_headers := headers;
                httpx.call_content := None;
                httpx.call_timeout := timeout |} in
    let w' := {| log := log w; calls := calls w ++ [c] |} in
    match u c with
    | httpx.Returned r => (Ok r, w')
    | httpx.Raised e => (Raise e, w')
    end.

(** ** The handler *)

(** The marks the log lines carry: U+274C and U+2705. *)
Definition cross_mark : pystr := [10060%N].
Definition check_mark : pystr := [9989%N].

(** [f'{{"error": "HTTP {status}"}}'] *)
Definition http_error_body (status : Z) : pystr :=
  lit "{" ++ [dquote] ++ lit "error" ++ [dquote] ++ lit ": " ++
  [dquote] ++ lit "HTTP " ++ str_int status ++ [dquote] ++ lit "}".

(** ['{"error": "Request timeout"}'] *)
Definition timeout_body : pystr :=
  lit "{" ++ [dquote] ++ lit "error" ++ [dquote] ++ lit ": " ++
  [dquote] ++ lit "Request timeout" ++ [dquote] ++ lit "}".

(** [f'{{"error": "Proxy error", "message": "{str(e)}"}}'] *)
Definition proxy_error_body (message : pystr) : pystr :=
  lit "{" ++ [dquote] ++ lit "error" ++ [dquote] ++ lit ": " ++
  [dquote] ++ lit "Proxy error" ++ [dquote] ++ lit ", " ++
  [dquote] ++ lit "message" ++ [dquote] ++ lit ": " ++
  [dquote] ++ message ++ [dquote] ++ lit "}".

Definition user_agent : gmap pystr pystr :=
  {[ lit "User-Agent" := lit "SyftBox-Proxy/1.0" ]}.

Definition no_cache : gmap pystr pystr :=
  {[ lit "Cache-Control" := lit "no-cache" ]}.

Open Scope handler_scope.

Definition proxy_download (request : ProxyRequest) : M Response :=
  logger.info (lit "Proxying download: " ++ format_optional (key request)) ;;
  logger.info (lit "  URL: " ++ take 100 (url request) ++ lit "...") ;;
  try_except
    (response <- AsyncClient_get 60 (url request) user_agent ;;
     if negb (httpx.status_code response =? 200)%Z then
       logger.error (lit "  " ++ cross_mark ++ lit " Error: HTTP " ++
                     str_int (httpx.status_code response)) ;;
       ret (Response_init
              (Str (http_error_body (httpx.status_code response)))
              (Some (httpx.status_code response))
              None
              (Some (lit "application/json")))
     else
       logger.info (lit "  " ++ check_mark ++ lit " Success: " ++
                    str_int (Z.of_nat (length (httpx.content response))) ++
                    lit " bytes") ;;
       ret (Response_init
              (Bytes (httpx.content response))
              None
              (Some no_cache)
              (Some (httpx.get (httpx.headers response) (lit "content-type")
                       (lit "application/octet-stream")))))
    (fun e =>
       if isinstance e TimeoutException then
         logger.error (lit "  " ++ cross_mark ++ lit " Request timeout") ;;
         ret (Response_init (Str timeout_body) (Some 500%Z) None
                (Some (lit "application/json")))
       else if isinstance e Exception then
         logger.error (lit "  " ++ cross_mark ++ lit " Error: " ++ exc_str e) ;;
         ret (Response_init (Str (proxy_error_body (exc_str e))) (Some 500%Z) None
                (Some (lit "application/json")))
       else raise e).

Close Scope handler_scope.

(** The call the handler makes for a request. *)
Definition the_call (request : ProxyRequest) : httpx.Call :=
  {| httpx.call_method := httpx.GET;
     httpx.call_url := url request;
     httpx.call_headers := user_agent;
     httpx.call_content := None;
     httpx.call_timeout := 60 |}.

(** An idle server: nothing logged, no call made. *)
Definition fresh : World := {| log := []; calls := [] |}.

(** ** The route: request validation in front of the handler *)

(** A decoded JSON request body; an object is a [dict]. *)
Inductive json : Type :=
  | JNull
  | JBool (b : bool)
  | JNumber (numeral : pystr)
  | JString (s : pystr)
  | JArray (items : list json)
  | JObject (fields : gmap pystr json).

(** The error kinds of the model validation, with the field they are about. *)
Inductive ValidationError : Type :=
  | model_attributes_type
  | missing (field : pystr)
  | string_type (field : pystr).

(** [url: str]: required, any string. *)
Definition validate_url (v : option json) : list ValidationError + pystr :=
  match v with
  | None => inl [missing (lit "url")]
  | Some (JString s) => inr s
  | Some _ => inl [string_type (lit "url")]
  end.

(** [key: Optional[str] = "unknown"]: a string, [null], or absent. *)
Definition validate_key (v : option json) : list ValidationError + option pystr :=
  match v with
  | None => inr key_default
  | Some JNull => inr None
  | Some (JString s) => inr (Some s)
  | Some _ => inl [string_type (lit "key")]
  end.

(** Validation of the body against [ProxyRequest]: every field is checked
    and the errors of all of them are reported; other fields are ignored. *)
Definition validate (body : json) : list ValidationError + ProxyRequest :=
  match body with
  | JObject fields =>
      match validate_url (fields !! lit "url"), validate_key (fields !! lit "key") with
      | inr u, inr k => inr {| url := u; key := k |}
      | inl eu, inl ek => inl (eu ++ ek)
      | inl eu, inr _ => inl eu
      | inr _, inl ek => inl ek
      end
  | _ => inl [model_attributes_type]
  end.

(** What the caller of [POST /proxy-download] gets: the framework's own
    validation error, or the handler's response. *)
Inductive Reply : Type :=
  | Unprocessable (errors : list ValidationError)
  | Handled (r : Response).

Open Scope handler_scope.

Definition post_proxy_download (body : json) : M Reply :=
  match validate body with
  | inl errors => ret (Unprocessable errors)
  | inr request => r <- proxy_download request ;; ret (Handled r)
  end.

Close Scope handler_scope.

(** ** JSON texts *)

(** A recogniser for the JSON grammar (RFC 8259) over code points, used to
    judge the bodies the handler builds by hand.  Each function takes the
    input left to read and gives what is left after the phrase it reads. *)
Module Json.

Definition is_ws (c : N) : bool :=
  ((c =? 32) || (c =? 9) || (c =? 10) || (c =? 13))%N.

Fixpoint skip_ws (s : pystr) : pystr :=
  match s with
  | c :: r => if is_ws c then skip_ws r else s
  | [] => []
  end.

Definition is_digit (c : N) : bool := ((48 <=? c) && (c <=? 57))%N.

Definition is_hex (c : N) : bool :=
  (is_digit c || ((65 <=? c) && (c <=? 70)) || ((97 <=? c) && (c <=? 102)))%N.

(** The characters that may follow a backslash, [u] apart:
    the double quote, the backslash, [/], [b], [f], [n], [r], [t]. *)
Definition is_escape (c : N) : bool :=
  bool_decide (c ∈ [34; 92; 47; 98; 102; 110; 114; 116]%N).

(** The rest of a string, after its opening quote. *)
Fixpoint string_tail (s : pystr) : option pystr :=
  match s with
  | [] => None
  | c :: r =>
      if (c =? 34)%N then Some r
      else if (c =? 92)%N then
        match r with
        | e :: r' =>
            if is_escape e then string_tail r'
            else if (e =? 117)%N then
              match r' with
              | h1 :: h2 :: h3 :: h4 :: r'' =>
                  if is_hex h1 && is_hex h2 && is_hex h3 && is_hex h4
                  then string_tail r'' else None
              | _ => None
              end
            else None
        | [] => None
        end
      else if ((c <? 32) || (1114111 <? c))%N then None
      else string_tail r
  end.

Definition string (s : pystr) : option pystr :=
  match s with
  | c :: r => if (c =? 34)%N then string_tail r else None
  | [] => None
  end.

Fixpoint digits (s : pystr) : pystr :=
  match s with
  | c :: r => if is_digit c then digits r else s
  | [] => []
  end.

Definition digits1 (s : pystr) : option pystr :=
  match s with
  | c :: r => if is_digit c then Some (digits r) else None
  | [] => None
  end.

Definition int_part (s : pystr) : option pystr :=
  match s with
  | c :: r =>
      if (c =? 48)%N then Some r
      else if is_digit c then Some (digits r)
      else None
  | [] => None
  end.

Definition frac_part (s : pystr) : option pystr :=
  match s with
  | c :: r => if (c =? 46)%N then digits1 r else Some s
  | [] => Some s
  end.

Definition exp_part (s : pystr) : option pystr :=
  match s with
  | c :: r =>
      if ((c =? 101) || (c =? 69))%N then
        match r with
        | sign :: r' =>
            if ((sign =? 43) || (sign =? 45))%N then digits1 r' else digits1 r
        | [] => None
        end
      else Some s
  | [] => Some s
  end.

Definition number (s : pystr) : option pystr :=
  let unsigned :=
    match s with
    | c :: r => if (c =? 45)%N then r else s
    | [] => s
    end in
  match int_part unsigned with
  | Some r1 =>
      match frac_part r1 with
      | Some r2 => exp_part r2
      | None => None
      end
  | None => None
  end.

Fixpoint strip_prefix (p s : pystr) : option pystr :=
  match p, s with
  | [], _ => Some s
  | a :: p', b :: s' => if (a =? b)%N then strip_prefix p' s' else None
  | _ :: _, [] => None
  end.

(** A value, the members of an object after its brace, the elements of an
    array after its bracket.  [fuel] bounds the nesting and the number of
    members and elements. *)
Fixpoint value (fuel : nat) (s : pystr) : option pystr :=
  match fuel with
  | O => None
  | S fuel' =>
      match s with
      | [] => None
      | c :: r =>
          if (c =? 123)%N then
            match skip_ws r with
            | c' :: r' =>
                if (c' =? 125)%N then Some r' else members fuel' (c' :: r')
            | [] => None
            end
          else if (c =? 91)%N then
            match skip_ws r with
            | c' :: r' =>
                if (c' =? 93)%N then Some r' else elements fuel' (c' :: r')
            | [] => None
            end
          else if (c =? 34)%N then string_tail r
          else if (c =? 116)%N then strip_prefix (lit "true") s
          else if (c =? 102)%N then strip_prefix (lit "false") s
          else if (c =? 110)%N then strip_prefix (lit "null") s
          else number s
      end
  end
with members (fuel : nat) (s : pystr) : option pystr :=
  match fuel with
  | O => None
  | S fuel' =>
      match string s with
      | Some r1 =>
          match skip_ws r1 with
          | c1 :: r2 =>
              if (c1 =? 58)%N then
                match value fuel' (skip_ws r2) with
                | Some r3 =>
                    match skip_ws r3 with
                    | c3 :: r4 =>
                        if (c3 =? 44)%N then members fuel' (skip_ws r4)
                        else if (c3 =? 125)%N then Some r4
                        else None
                    | [] => None
                    end
                | None => None
                end
              else None
          | [] => None
          end
      | None => None
      end
  end
with elements (fuel : nat) (s : pystr) : option pystr :=
  match fuel with
  | O => None
  | S fuel' =>
      match value fuel' s with
      | Some r1 =>
          match skip_ws r1 with
          | c1 :: r2 =>
              if (c1 =? 44)%N then elements fuel' (skip_ws r2)
              else if (c1 =? 93)%N then Some r2
              else None
          | [] => None
          end
      | None => None
      end
  end.

(** A JSON text: one value between optional white space. *)
Definition text (fuel : nat) (s : pystr) : bool :=
  match value fuel (skip_ws s) with
  | Some r => bool_decide (skip_ws r = [])
  | None => false
  end.

Definition is_json (s : pystr) : bool := text (S (length s)) s.

(** Validity proper does not depend on a choice of fuel. *)
Definition Valid (s : pystr) : Prop := exists fuel, text fuel s = true.

End Json.

(** ** The handler's effect, outcome by outcome *)

(** The two lines logged before the call. *)
Definition preamble (request : ProxyRequest) : list (Level * pystr) :=
  [ (INFO, lit "Proxying download: " ++ format_optional (key request));
    (INFO, lit "  URL: " ++ take 100 (url request) ++ lit "...") ].

(** The world a run leaves: three more log lines and one more call. *)
Definition after (request : ProxyRequest) (w : World) (last : Level * pystr) : World :=
  {| log := (log w ++ preamble request) ++ [last];
     calls := calls w ++ [the_call request] |}.

(** The response the handler builds for an outcome of its call. *)
Definition response_for (o : httpx.Outcome) : Response :=
  match o with
  | httpx.Returned r =>
      if (httpx.status_code r =? 200)%Z then
        {| content := Bytes (httpx.content r);
           status_code := 200;
           headers := Some no_cache;
           media_type :=
             Some (httpx.get (httpx.headers r) (lit "content-type")
                     (lit "application/octet-stream")) |}
      else
        {| content := Str (http_error_body (httpx.status_code r));
           status_code := httpx.status_code r;
           headers := None;
           media_type := Some (lit "application/json") |}
  | httpx.Raised e =>
      {| content :=
           Str (if isinstance e TimeoutException then timeout_body
                else proxy_error_body (exc_str e));
         status_code := 500;
         headers := None;
         media_type := Some (lit "application/json") |}
  end.

(** The last line the handler logs for an outcome of its call. *)
Definition last_line (o : httpx.Outcome) : Level * pystr :=
  match o with
  | httpx.Returned r =>
      if (httpx.status_code r =? 200)%Z then
        (INFO, lit "  " ++ check_mark ++ lit " Success: " ++
               str_int (Z.of_nat (length (httpx.content r))) ++ lit " bytes")
      else
        (ERROR, lit "  " ++ cross_mark ++ lit " Error: HTTP " ++
                str_int (httpx.status_code r))
  | httpx.Raised e =>
      if isinstance e TimeoutException then
        (ERROR, lit "  " ++ cross_mark ++ lit " Request timeout")
      else
        (ERROR, lit "  " ++ cross_mark ++ lit " Error: " ++ exc_str e)
  end.

(** ** Sample requests and upstreams *)

Definition example_request : ProxyRequest :=
  {| url := lit "https://bucket.example/data.bin"; key := key_default |}.

(** A stored object served with its type. *)
Definition png_response : httpx.Response :=
  {| httpx.status_code := 200;
     httpx.headers := httpx.mkHeaders [(lit "Content-Type", lit "image/png")];
     httpx.content := [x89; x50; x4e; x47]%byte |}.

(** The same object under other headers: a cookie, and Content-Type in
    another case. *)
Definition png_response_with_cookie : httpx.Response :=
  {| httpx.status_code := 200;
     httpx.headers :=
       httpx.mkHeaders [ (lit "Set-Cookie", lit "session=1");
                         (lit "content-type", lit "image/png");
                         (lit "ETag", lit "abc") ];
     httpx.content := [x89; x50; x4e; x47]%byte |}.

(** A missing object, with an HTML page for a body. *)
Definition not_found : httpx.Response :=
  {| httpx.status_code := 404;
     httpx.headers := httpx.mkHeaders [(lit "Content-Type", lit "text/html")];
     httpx.content := [x3c; x68; x31; x3e]%byte |}.

(** A connection failure whose description is a lone double quote. *)
Definition quoting_failure : PyExc := mkExc ConnectError [dquote].

Definition read_timeout : PyExc :=
  mkExc ReadTimeout (lit "The read operation timed out").

(** What the client says of a URL that names no scheme. *)
Definition unsupported_protocol : PyExc :=
  mkExc UnsupportedProtocol
    (lit "Request URL is missing an 'http://' or 'https://' protocol.").

(** An upstream reached by every URL but the empty one. *)
Definition needs_a_url : Upstream :=
  fun c =>
    match httpx.call_url c with
    | [] => httpx.Raised unsupported_protocol
    | _ => httpx.Returned png_response
    end.

(** ** Descriptions that need no escaping *)

(** A character a JSON string may hold as it is: no control character, no
    double quote, no backslash. *)
Definition plain_char (c : N) : bool :=
  ((32 <=? c) && (c <=? 1114111) && negb (c =? 34) && negb (c =? 92))%N.

Definition plain (s : pystr) : bool := forallb plain_char s.

(** A timeout met while connecting. *)
Definition connect_timeout : PyExc := mkExc ConnectTimeout [].

(** * Properties *)

(** ** The exception classes *)

Lemma issubclass_Exception (c : ExcClass) : issubclass c Exception = true.
Proof. destruct c; reflexivity. Qed.

Lemma isinstance_Exception (e : PyExc) : isinstance e Exception = true.
Proof. apply issubclass_Exception. Qed.

(** The classes the first [except] clause takes. *)
Lemma issubclass_TimeoutException (c : ExcClass) :
  issubclass c TimeoutException = true <->
  c ∈ [TimeoutException; ConnectTimeout; ReadTimeout; WriteTimeout; PoolTimeout].
Proof.
  split.
  - destruct c; intros H; try discriminate H; set_solver.
  - intros H. repeat (apply elem_of_cons in H as [-> | H]; [reflexivity |]).
    by apply elem_of_nil in H.
Qed.

(** ** One run of the handler, outcome by outcome *)

Section Runs.

Variable u : Upstream.
Variable request : ProxyRequest.
Variable w : World.

Lemma run_success (r : httpx.Response) :
  u (the_call request) = httpx.Returned r ->
  httpx.status_code r = 200%Z ->
  proxy_download request u w =
    (Ok {| content := Bytes (httpx.content r);
           status_code := 200;
           headers := Some no_cache;
           media_type :=
             Some (httpx.get (httpx.headers r) (lit "content-type")
                     (lit "application/octet-stream")) |},
     after request w (INFO, lit "  " ++ check_mark ++ lit " Success: " ++
                  str_int (Z.of_nat (length (httpx.content r))) ++ lit " bytes")).
Proof.
  intros Hu Hs.
  unfold proxy_download, try_except, bind, AsyncClient_get, logger.info, logger.emit.
  cbn [log calls]. fold (the_call request). rewrite Hu, Hs. cbn.
  unfold after, preamble. by rewrite <- !app_assoc.
Qed.

Lemma run_status (r : httpx.Response) :
  u (the_call request) = httpx.Returned r ->
  httpx.status_code r <> 200%Z ->
  proxy_download request u w =
    (Ok {| content := Str (http_error_body (httpx.status_code r));
           status_code := httpx.status_code r;
           headers := None;
           media_type := Some (lit "application/json") |},
     after request w (ERROR, lit "  " ++ cross_mark ++ lit " Error: HTTP " ++
                   str_int (httpx.status_code r))).
Proof.
  intros Hu Hs. apply Z.eqb_neq in Hs.
  unfold proxy_download, try_except, bind, AsyncClient_get, logger.info,
    logger.error, logger.emit.
  cbn [log calls]. fold (the_call request). rewrite Hu, Hs. cbn.
  unfold after, preamble. by rewrite <- !app_assoc.
Qed.

Lemma run_timeout (e : PyExc) :
  u (the_call request) = httpx.Raised e ->
  isinstance e TimeoutException = true ->
  proxy_download request u w =
    (Ok {| content := Str timeout_body;
           status_code := 500;
           headers := None;
           media_type := Some (lit "application/json") |},
     after request w (ERROR, lit "  " ++ cross_mark ++ lit " Request timeout")).
Proof.
  intros Hu He.
  unfold proxy_download, try_except, bind, AsyncClient_get, logger.info,
    logger.error, logger.emit.
  cbn [log calls]. fold (the_call request). rewrite Hu, He. cbn.
  unfold after, preamble. by rewrite <- !app_assoc.
Qed.

Lemma run_failure (e : PyExc) :
  u (the_call request) = httpx.Raised e ->
  isinstance e TimeoutException = false ->
  proxy_download request u w =
    (Ok {| content := Str (proxy_error_body (exc_str e));
           status_code := 500;
           headers := None;
           media_type := Some (lit "application/json") |},
     after request w (ERROR, lit "  " ++ cross_mark ++ lit " Error: " ++ exc_str e)).
Proof.
  intros Hu He.
  unfold proxy_download, try_except, bind, AsyncClient_get, logger.info,
    logger.error, logger.emit.
  cbn [log calls]. fold (the_call request).
  rewrite Hu, He, (isinstance_Exception e). cbn.
  unfold after, preamble. by rewrite <- !app_assoc.
Qed.

End Runs.

(** ** Strings and headers *)

(** [str_int] writes the decimal numeral of its argument. *)
Lemma str_int_decimal (n : Z) :
  exists numeral : string,
    str_int n = lit numeral /\
    option_map Z.of_int (NilZero.int_of_string numeral) = Some n.
Proof.
  exists (NilZero.string_of_int (Z.to_int n)). split; [reflexivity |].
  rewrite NilZero.isi.
  - cbn. by rewrite DecimalZ.of_to.
  - destruct n; cbn; [discriminate | | discriminate].
    intros [= H]. by apply Unsigned.to_uint_nonnil in H.
  - destruct n; cbn; [discriminate | discriminate |].
    intros [= H]. by apply Unsigned.to_uint_nonnil in H.
Qed.

Example str_int_404 : str_int 404 = lit "404".
Proof. reflexivity. Qed.

Example http_error_body_404 : http_error_body 404 = sq "{'error': 'HTTP 404'}".
Proof. reflexivity. Qed.

Example timeout_body_text : timeout_body = sq "{'error': 'Request timeout'}".
Proof. reflexivity. Qed.

Example proxy_error_body_boom :
  proxy_error_body (lit "boom") = sq "{'error': 'Proxy error', 'message': 'boom'}".
Proof. reflexivity. Qed.

Lemma http_error_body_sq (n : Z) :
  http_error_body n = sq "{'error': 'HTTP " ++ str_int n ++ sq "'}".
Proof. reflexivity. Qed.

Lemma proxy_error_body_sq (d : pystr) :
  proxy_error_body d = sq "{'error': 'Proxy error', 'message': '" ++ d ++ sq "'}".
Proof. reflexivity. Qed.

(** A header is absent exactly when no line carries its name, in any case. *)
Lemma getitem_None (h : httpx.Headers) (k : pystr) :
  httpx.getitem h k = None <->
  forall n v, In (n, v) (httpx.raw h) -> lower n <> lower k.
Proof.
  unfold httpx.getitem. destruct h as [l]. cbn [httpx.raw].
  induction l as [| [n v] l IH]; cbn.
  - split; [intros _ ? ? [] | reflexivity].
  - case_bool_decide as Hn; cbn.
    + split; [discriminate |]. intros H. exfalso. exact (H n v (or_introl eq_refl) Hn).
    + destruct IH as [IH1 IH2]. split.
      * intros H n' v' [[= <- <-] | Hin]; [exact Hn |].
        apply (IH1 H n' v' Hin).
      * intros H. apply IH2. intros n' v' Hin. apply (H n' v'). by right.
Qed.

(** A header carried by one line has that line's value, whatever the case
    its name is written in. *)
Lemma getitem_unique (l1 l2 : list (pystr * pystr)) (n v k : pystr) :
  lower n = lower k ->
  (forall n' v', In (n', v') (l1 ++ l2) -> lower n' <> lower k) ->
  httpx.getitem (httpx.mkHeaders (l1 ++ (n, v) :: l2)) k = Some v.
Proof.
  intros Hn Hothers.
  assert (Hnil : forall l : list (pystr * pystr),
            (forall n' v', In (n', v') l -> lower n' <> lower k) ->
            List.filter (fun kv : pystr * pystr => bool_decide (lower (fst kv) = lower k)) l = []).
  { induction l as [| [n' v'] l IH]; intros H; [reflexivity |]. cbn.
    rewrite bool_decide_eq_false_2 by (apply (H n' v'); by left).
    apply IH. intros n'' v'' Hin. apply (H n'' v''). by right. }
  unfold httpx.getitem. cbn [httpx.raw].
  rewrite List.filter_app. cbn. rewrite bool_decide_eq_true_2 by exact Hn.
  rewrite !Hnil.
  - reflexivity.
  - intros n' v' Hin. apply (Hothers n' v'). apply in_or_app. by right.
  - intros n' v' Hin. apply (Hothers n' v'). apply in_or_app. by left.
Qed.

Lemma get_absent (h : httpx.Headers) (k d : pystr) :
  httpx.getitem h k = None -> httpx.get h k d = d.
Proof. unfold httpx.get. by intros ->. Qed.

Example get_content_type_any_case :
  httpx.get (httpx.mkHeaders [(lit "Server", lit "s3"); (lit "Content-Type", lit "image/png")])
    (lit "content-type") (lit "application/octet-stream") = lit "image/png".
Proof. reflexivity. Qed.

(** ** The four outcomes *)





(** The text the handler builds around a lone double quote is not JSON:
    the quote closes the string early, and a third quote follows it. *)
Lemma lone_quote_not_json : ~ Json.Valid (proxy_error_body [dquote]).
Proof.
  intros [fuel H].
  destruct fuel as [| [| [| [| fuel]]]]; vm_compute in H; discriminate H.
Qed.

Lemma is_json_Valid (s : pystr) : Json.is_json s = true -> Json.Valid s.
Proof. intros H. by exists (S (length s)). Qed.

Example plain_description_is_json : Json.Valid (proxy_error_body (lit "boom")).
Proof. by apply is_json_Valid. Qed.

(** A description may also smuggle a member in and leave the text valid. *)
Example injected_member_is_json :
  Json.Valid (proxy_error_body (sq "x', 'status': 'ok")).
Proof. by apply is_json_Valid. Qed.



Lemma timeout_body_not_proxy_error (d : pystr) : timeout_body <> proxy_error_body d.
Proof. intros H. vm_compute in H. discriminate H. Qed.

(** C4. When the outbound fetch raises a timeout, the handler returns a
    response of status 500 and media type [application/json] whose content
    is exactly the text [{'error': 'Request timeout'}] (with double quotes),
    which is not the generic proxy-error text for any message. *)
Theorem timeout_is_reported (u : Upstream) (request : ProxyRequest)
    (w : World) (e : PyExc) :
  u (the_call request) = httpx.Raised e ->
  isinstance e TimeoutException = true ->
  exists resp w',
    proxy_download request u w = (Ok resp, w') /\
    status_code resp = 500%Z /\
    content resp = Str (sq "{'error': 'Request timeout'}") /\
    media_type resp = Some (lit "application/json") /\
    forall d : pystr,
      content resp <>
        Str (sq "{'error': 'Proxy error', 'message': '" ++ d ++ sq "'}").
Proof.
  intros Hu He. eexists _, _. split; [exact (run_timeout u request w e Hu He) |].
  cbn [status_code content media_type].
  split; [reflexivity |]. split; [reflexivity |]. split; [reflexivity |].
  intros d H. apply (timeout_body_not_proxy_error d).
  rewrite proxy_error_body_sq. congruence.
Qed.

Lemma timeout_is_reported_witness :
  exists resp w',
    proxy_download example_request (fun _ => httpx.Raised read_timeout) fresh
      = (Ok resp, w') /\
    status_code resp = 500%Z /\
    content resp = Str (sq "{'error': 'Request timeout'}") /\
    media_type resp = Some (lit "application/json") /\
    forall d : pystr,
      content resp <>
        Str (sq "{'error': 'Proxy error', 'message': '" ++ d ++ sq "'}").
Proof.
  apply (timeout_is_reported (fun _ => httpx.Raised read_timeout)
           example_request fresh read_timeout); reflexivity.
Defined.

(** ** The handler as a function of the outcome *)

Lemma proxy_download_run (u : Upstream) (request : ProxyRequest) (w : World) :
  proxy_download request u w =
    (Ok (response_for (u (the_call request))),
     after request w (last_line (u (the_call request)))).
Proof.
  destruct (u (the_call request)) as [r | e] eqn:Hu; cbn [response_for last_line].
  - destruct (Z.eqb_spec (httpx.status_code r) 200) as [Hs | Hs].
    + exact (run_success u request w r Hu Hs).
    + exact (run_status u request w r Hu Hs).
  - destruct (isinstance e TimeoutException) eqn:He.
    + exact (run_timeout u request w e Hu He).
    + exact (run_failure u request w e Hu He).
Qed.


Lemma proxy_download_response (u : Upstream) (request : ProxyRequest) (w : World) :
  fst (proxy_download request u w) = Ok (response_for (u (the_call request))).
Proof. by rewrite proxy_download_run. Qed.

Lemma proxy_download_world (u : Upstream) (request : ProxyRequest) (w : World) :
  snd (proxy_download request u w) = after request w (last_line (u (the_call request))).
Proof. by rewrite proxy_download_run. Qed.

(** The route runs the handler on every body that validates. *)
Lemma post_proxy_download_valid (u : Upstream) (w : World) (body : json)
    (request : ProxyRequest) :
  validate body = inr request ->
  post_proxy_download body u w =
    (Ok (Handled (response_for (u (the_call request)))),
     after request w (last_line (u (the_call request)))).
Proof.
  intros Hv. unfold post_proxy_download. rewrite Hv.
  unfold bind. by rewrite proxy_download_run.
Qed.

Lemma url_is_not_key : lit "url" <> lit "key".
Proof. discriminate. Qed.

(** ** The label, the call, and repetition *)

(** C6. Two requests that differ only in [key], one of which may leave it
    out and so get the default [unknown], meet the same upstream with the
    same call and get the same response; the key shows in the first log line
    and nowhere else. *)
Theorem key_only_labels_the_log (u : Upstream) (w : World) (target : pystr) :
  (forall k1 k2 : option pystr,
     fst (proxy_download {| url := target; key := k1 |} u w) =
     fst (proxy_download {| url := target; key := k2 |} u w) /\
     calls (snd (proxy_download {| url := target; key := k1 |} u w)) =
     calls (snd (proxy_download {| url := target; key := k2 |} u w))) /\
  (exists rest : list (Level * pystr),
     forall k : option pystr,
       log (snd (proxy_download {| url := target; key := k |} u w)) =
       log w ++ (INFO, lit "Proxying download: " ++ format_optional k) :: rest) /\
  (forall (fields : gmap pystr json) (k : pystr),
     fields !! lit "url" = Some (JString target) ->
     fields !! lit "key" = Some (JString k) ->
     validate (JObject (delete (lit "key") fields)) =
       inr {| url := target; key := Some (lit "unknown") |} /\
     fst (post_proxy_download (JObject fields) u w) =
     fst (post_proxy_download (JObject (delete (lit "key") fields)) u w)).
Proof.
  split; [| split].
  - intros k1 k2. rewrite !proxy_download_response, !proxy_download_world.
    split; reflexivity.
  - exists [ (INFO, lit "  URL: " ++ take 100 target ++ lit "...");
             last_line (u (the_call {| url := target; key := None |})) ].
    intros k. rewrite proxy_download_world.
    unfold after, preamble. cbn [log url key].
    rewrite <- !app_assoc. reflexivity.
  - intros fields k Hurl Hkey.
    assert (Hfull : validate (JObject fields) = inr {| url := target; key := Some k |}).
    { unfold validate. by rewrite Hurl, Hkey. }
    assert (Hless : validate (JObject (delete (lit "key") fields)) =
                    inr {| url := target; key := Some (lit "unknown") |}).
    { unfold validate. rewrite lookup_delete_eq.
      rewrite lookup_delete_ne by (intros H; exact (url_is_not_key (eq_sym H))).
      by rewrite Hurl. }
    split; [exact Hless |].
    by rewrite (post_proxy_download_valid u w _ _ Hfull),
               (post_proxy_download_valid u w _ _ Hless).
Qed.

Lemma key_only_labels_the_log_witness :
  validate (JObject (delete (lit "key")
              {[ lit "url" := JString (lit "https://bucket.example/data.bin");
                 lit "key" := JString (lit "report.csv") ]})) =
    inr {| url := lit "https://bucket.example/data.bin"; key := Some (lit "unknown") |} /\
  fst (post_proxy_download
         (JObject {[ lit "url" := JString (lit "https://bucket.example/data.bin");
                     lit "key" := JString (lit "report.csv") ]})
         (fun _ => httpx.Returned png_response) fresh) =
  fst (post_proxy_download
         (JObject (delete (lit "key")
            {[ lit "url" := JString (lit "https://bucket.example/data.bin");
               lit "key" := JString (lit "report.csv") ]}))
         (fun _ => httpx.Returned png_response) fresh).
Proof.
  apply (proj2 (proj2 (key_only_labels_the_log (fun _ => httpx.Returned png_response)
                         fresh (lit "https://bucket.example/data.bin")))
           {[ lit "url" := JString (lit "https://bucket.example/data.bin");
              lit "key" := JString (lit "report.csv") ]}
           (lit "report.csv")); reflexivity.
Defined.

(** The key does reach the log. *)
Example key_changes_the_log :
  log (snd (proxy_download {| url := lit "u"; key := Some (lit "a") |}
              (fun _ => httpx.Returned png_response) fresh)) <>
  log (snd (proxy_download {| url := lit "u"; key := None |}
              (fun _ => httpx.Returned png_response) fresh)).
Proof. rewrite !proxy_download_world. vm_compute. discriminate. Qed.


(** C8. The response depends on the request and the upstream only: the
    same request sent again to the same upstream, in the world the first run
    left, gets an equal response, and the second run fetches again. *)
Theorem repeated_request_same_response (u : Upstream) (request : ProxyRequest)
    (w : World) :
  let first := proxy_download request u w in
  let second := proxy_download request u (snd first) in
  fst second = fst first /\
  calls (snd second) = calls w ++ [the_call request; the_call request] /\
  forall w' : World,
    fst (proxy_download request u w') = fst (proxy_download request u w).
Proof.
  cbn zeta. rewrite !proxy_download_response, !proxy_download_world.
  split; [reflexivity |]. split.
  - cbn [after calls]. by rewrite <- app_assoc.
  - intros w'. by rewrite proxy_download_response.
Qed.

(** ** The empty URL *)



(** A body without [url], or with a [url] that is no string, stops at
    validation. *)
Example missing_url_is_rejected :
  post_proxy_download (JObject {[ lit "key" := JString (lit "k") ]}) needs_a_url fresh
  = (Ok (Unprocessable [missing (lit "url")]), fresh).
Proof. reflexivity. Qed.

(** ** Response headers *)



(** * Further properties of the handler *)

(** ** The log *)


(** X2. The second line logged holds a prefix of [request.url] of at most
    100 characters, the whole URL when it is no longer than that, between
    the text before it and three dots. *)
Theorem url_line_is_truncated (u : Upstream) (request : ProxyRequest) (w : World) :
  exists shown : pystr,
    log (snd (proxy_download request u w)) !! (length (log w) + 1)%nat =
      Some (INFO, lit "  URL: " ++ shown ++ lit "...") /\
    shown `prefix_of` url request /\
    length shown = Nat.min 100 (length (url request)).
Proof.
  exists (take 100 (url request)). rewrite proxy_download_world.
  split; [| split].
  - unfold after, preamble. cbn [log].
    rewrite <- !app_assoc. rewrite lookup_app_r by lia.
    replace (length (log w) + 1 - length (log w))%nat with 1%nat by lia.
    reflexivity.
  - apply prefix_take.
  - apply length_take.
Qed.



(** ** What a response tells the caller *)


(** X5. The three error texts differ from one another whatever the status
    and the description, so the body tells a mirrored upstream status, a
    timeout and a failed fetch apart even when all three have status 500. *)
Theorem error_texts_are_told_apart (n : Z) (d : pystr) :
  http_error_body n <> timeout_body /\
  http_error_body n <> proxy_error_body d /\
  timeout_body <> proxy_error_body d.
Proof.
  split; [| split].
  - intros H. apply (f_equal (fun s => s !! 11%nat)) in H. discriminate H.
  - intros H. apply (f_equal (fun s => s !! 11%nat)) in H. discriminate H.
  - apply timeout_body_not_proxy_error.
Qed.

Lemma error_texts_are_told_apart_witness :
  http_error_body 500 <> timeout_body /\
  http_error_body 500 <> proxy_error_body (lit "HTTP 500") /\
  timeout_body <> proxy_error_body (lit "HTTP 500").
Proof. exact (error_texts_are_told_apart 500 (lit "HTTP 500")). Defined.

(** ** Which texts are JSON *)

(** Plain characters are read up to the closing quote. *)
Lemma string_tail_plain (d rest : pystr) :
  plain d = true ->
  Json.string_tail (d ++ dquote :: rest) = Some rest.
Proof.
  induction d as [| c d IH]; intros H; [reflexivity |].
  cbn [plain forallb] in H. apply andb_prop in H as [Hc Hd].
  unfold plain_char in Hc.
  apply andb_prop in Hc as [Hc H92]. apply andb_prop in Hc as [Hc H34].
  apply andb_prop in Hc as [Hlo Hhi].
  apply negb_true_iff in H34, H92.
  cbn [app Json.string_tail]. rewrite H34, H92.
  replace (c <? 32)%N with false by (symmetry; apply N.ltb_ge; by apply N.leb_le).
  replace (1114111 <? c)%N with false by (symmetry; apply N.ltb_ge; by apply N.leb_le).
  cbn [orb]. by apply IH.
Qed.

(** Reading the proxy-error text comes down to reading the description
    and what follows it. *)
Lemma proxy_error_body_parse (d : pystr) :
  Json.value 5 (Json.skip_ws (proxy_error_body d)) =
  match Json.string_tail (d ++ dquote :: lit "}") with
  | Some r => match Json.skip_ws r with
              | c :: r' =>
                  if (c =? 44)%N then Json.members 2 (Json.skip_ws r')
                  else if (c =? 125)%N then Some r'
                  else None
              | [] => None
              end
  | None => None
  end.
Proof. reflexivity. Qed.

(** The same for the status text and its numeral. *)
Lemma http_error_body_parse (n : Z) :
  Json.value 5 (Json.skip_ws (http_error_body n)) =
  match Json.string_tail (lit "HTTP " ++ str_int n ++ dquote :: lit "}") with
  | Some r => match Json.skip_ws r with
              | c :: r' =>
                  if (c =? 44)%N then Json.members 3 (Json.skip_ws r')
                  else if (c =? 125)%N then Some r'
                  else None
              | [] => None
              end
  | None => None
  end.
Proof. reflexivity. Qed.

Lemma plain_app (a b : pystr) : plain a = true -> plain b = true -> plain (a ++ b) = true.
Proof. unfold plain. intros Ha Hb. by rewrite forallb_app, Ha, Hb. Qed.

Lemma plain_uint (d : Decimal.uint) : plain (lit (NilEmpty.string_of_uint d)) = true.
Proof.
  induction d as [| d IH | d IH | d IH | d IH | d IH | d IH | d IH | d IH | d IH | d IH];
    [reflexivity | ..];
    cbn [NilEmpty.string_of_uint];
    match goal with
    | |- plain (lit (String ?c ?s)) = true =>
        change (plain_char (N_of_ascii c) && plain (lit s) = true)
    end;
    rewrite IH; reflexivity.
Qed.

(** A decimal numeral, signed or not, is plain. *)
Lemma plain_str_int (n : Z) : plain (str_int n) = true.
Proof.
  assert (Hu : forall d, plain (lit (NilZero.string_of_uint d)) = true).
  { intros d. destruct d; [reflexivity | ..];
      match goal with |- context [NilZero.string_of_uint ?x] => exact (plain_uint x) end. }
  unfold str_int. destruct (Z.to_int n) as [d | d].
  - apply Hu.
  - change (plain_char 45 && plain (lit (NilZero.string_of_uint d)) = true).
    by rewrite Hu.
Qed.

Lemma plain_description_gives_json (d : pystr) :
  plain d = true -> Json.Valid (proxy_error_body d).
Proof.
  intros H. exists 5%nat. unfold Json.text.
  rewrite proxy_error_body_parse, (string_tail_plain d _ H). reflexivity.
Qed.

Lemma status_text_is_json (n : Z) : Json.Valid (http_error_body n).
Proof.
  exists 5%nat. unfold Json.text. rewrite http_error_body_parse.
  rewrite app_assoc, string_tail_plain; [reflexivity |].
  apply plain_app; [reflexivity | apply plain_str_int].
Qed.


(** ** Validation and the handler *)


(** X8. A body whose [key] is [null] validates with no key at all; the
    first line logged then reads [Proxying download: None], and the reply is
    the one the same body gets without the [key] field. *)
Theorem null_key_is_logged_as_None (u : Upstream) (w : World)
    (fields : gmap pystr json) (target : pystr) :
  fields !! lit "url" = Some (JString target) ->
  fields !! lit "key" = Some JNull ->
  validate (JObject fields) = inr {| url := target; key := None |} /\
  log (snd (post_proxy_download (JObject fields) u w)) !! length (log w) =
    Some (INFO, lit "Proxying download: None") /\
  fst (post_proxy_download (JObject fields) u w) =
  fst (post_proxy_download (JObject (delete (lit "key") fields)) u w).
Proof.
  intros Hurl Hkey.
  assert (Hv : validate (JObject fields) = inr {| url := target; key := None |}).
  { unfold validate. by rewrite Hurl, Hkey. }
  assert (Hless : validate (JObject (delete (lit "key") fields)) =
                  inr {| url := target; key := Some (lit "unknown") |}).
  { unfold validate. rewrite lookup_delete_eq.
    rewrite lookup_delete_ne by (intros H; exact (url_is_not_key (eq_sym H))).
    by rewrite Hurl. }
  split; [exact Hv |].
  rewrite (post_proxy_download_valid u w _ _ Hv),
          (post_proxy_download_valid u w _ _ Hless).
  split; [| reflexivity].
  unfold after, preamble. cbn [snd log key format_optional].
  rewrite <- !app_assoc. rewrite lookup_app_r by lia.
  by rewrite Nat.sub_diag.
Qed.

Lemma null_key_is_logged_as_None_witness :
  validate (JObject {[ lit "url" := JString (lit "https://bucket.example/data.bin");
                       lit "key" := JNull ]}) =
    inr {| url := lit "https://bucket.example/data.bin"; key := None |} /\
  log (snd (post_proxy_download
              (JObject {[ lit "url" := JString (lit "https://bucket.example/data.bin");
                          lit "key" := JNull ]})
              (fun _ => httpx.Returned png_response) fresh)) !! length (log fresh) =
    Some (INFO, lit "Proxying download: None") /\
  fst (post_proxy_download
         (JObject {[ lit "url" := JString (lit "https://bucket.example/data.bin");
                     lit "key" := JNull ]})
         (fun _ => httpx.Returned png_response) fresh) =
  fst (post_proxy_download
         (JObject (delete (lit "key")
            {[ lit "url" := JString (lit "https://bucket.example/data.bin");
               lit "key" := JNull ]}))
         (fun _ => httpx.Returned png_response) fresh).
Proof.
  apply (null_key_is_logged_as_None (fun _ => httpx.Returned png_response) fresh
           {[ lit "url" := JString (lit "https://bucket.example/data.bin");
              lit "key" := JNull ]}
           (lit "https://bucket.example/data.bin")); reflexivity.
Defined.

(** ** Raised outcomes *)



(** ** Requests in turn *)

